(** * Trade-off model of [be/chat_tools_speakeasy/simulation.py]

    The simulation module compares three ways of giving an agent its
    context (full context, static tools, dynamic toolset) by closed-form
    token, latency and accuracy formulas, and sweeps them over tool counts.

    Number model.  The module computes on numpy arrays: tool counts are
    64-bit integer elements, everything derived from them is [float64].
    An integer element is a [Z], and each integer operation numpy performs
    on an element is followed by its 64-bit wrap-around, [wrap64].  A float
    is an exact rational [Q]; the properties are stated on ranges of tool
    counts and cycle counts where the values they separate lie further
    apart than rounding reaches.  A numpy function of an array acts element
    by element: each model function is given on one element and the sweeps
    lift it with [map].  The plotting calls of the [run_*] functions have
    no effect on what they return and are left out. *)

From Stdlib Require Import ZArith QArith Qpower Qminmax Lia Lqa List Sorted Bool String.
Import ListNotations.

Local Open Scope Q_scope.
Local Coercion inject_Z : Z >-> Q.

(** ** Model parameters (simulation.py:35-78) *)

Definition BASE_SYSTEM_PROMPT_TOKENS : Z := 500.
Definition TOKENS_PER_TOOL_SCHEMA : Z := 100.
Definition TOKENS_PER_ENTITY : Z := 72.
Definition ENTITIES_PER_TYPE : Z := 100.
Definition NUM_ENTITY_TYPES : Z := 5.

Definition DYNAMIC_META_TOOLS_TOKENS : Z := 150.
Definition DYNAMIC_DISCOVERY_OVERHEAD : Z := 75.
Definition DYNAMIC_SCHEMAS_LOADED : Q := 2.5.

Definition LLM_BASE_LATENCY : Z := 800.
Definition LLM_LATENCY_PER_1K_TOKENS : Z := 50.
Definition TOOL_CALL_LATENCY : Z := 200.

Definition CONTEXT_SIZE_ACCURACY_THRESHOLD : Z := 20000.
Definition CONTEXT_SIZE_ACCURACY_DECAY : Q := 0.00002.
Definition MAX_CONTEXT_ACCURACY_LOSS : Q := 0.15.

Definition TOOL_COUNT_ACCURACY_THRESHOLD : Z := 15.
Definition TOOL_COUNT_ACCURACY_DECAY : Q := 0.003.
Definition MAX_TOOL_ACCURACY_LOSS : Q := 0.20.

Definition DISCOVERY_FAILURE_BASE_RATE : Q := 0.02.
Definition DISCOVERY_CYCLE_ERROR_RATE : Q := 0.015.
Definition DYNAMIC_CYCLES_MIN : Z := 2.
Definition DYNAMIC_CYCLES_AVG : Z := 3.
Definition DYNAMIC_CYCLES_MAX : Z := 6.

(** ** 64-bit integer elements

    [num_tools * k], [k + schema] and [num_tools - k] on an integer array
    are computed in [int64] and wrap silently. *)
Definition wrap64 (z : Z) : Z :=
  ((z + 9223372036854775808) mod 18446744073709551616 - 9223372036854775808)%Z.

Definition INT64_MIN : Z := -9223372036854775808.
Definition INT64_MAX : Z := 9223372036854775807.

(** The largest tool count whose schema tokens plus the base prompt,
    [500 + 100 * n], still fit a 64-bit integer. *)
Definition schema_tokens_bound : Z := 92233720368547753.

(** ** Cost model (simulation.py:85-129, 235-255) *)

(** [np.full_like(num_tools, v, dtype=float)]: every element is [v]. *)
Definition full_context_tokens (num_tools : Z) : Q :=
  let entity_tokens := (ENTITIES_PER_TYPE * NUM_ENTITY_TYPES * TOKENS_PER_ENTITY)%Z in
  inject_Z (BASE_SYSTEM_PROMPT_TOKENS + entity_tokens).

Definition full_context_latency (num_tools : Z) : Q :=
  let tokens := full_context_tokens num_tools in
  LLM_BASE_LATENCY + (tokens / 1000) * LLM_LATENCY_PER_1K_TOKENS.

Definition static_tools_tokens (num_tools : Z) : Q :=
  let schema_tokens := wrap64 (num_tools * TOKENS_PER_TOOL_SCHEMA) in
  let data_tokens := (10 * NUM_ENTITY_TYPES * TOKENS_PER_ENTITY)%Z * 0.5 in
  wrap64 (BASE_SYSTEM_PROMPT_TOKENS + schema_tokens) + data_tokens.

Definition static_tools_latency (num_tools : Z) : Q :=
  let tokens := static_tools_tokens num_tools in
  let llm_latency := LLM_BASE_LATENCY + (tokens / 1000) * LLM_LATENCY_PER_1K_TOKENS in
  let tool_latency := (3 * TOOL_CALL_LATENCY)%Z in
  llm_latency + tool_latency.

Definition dynamic_toolset_tokens (num_tools : Z) : Q :=
  let meta_tokens := DYNAMIC_META_TOOLS_TOKENS in
  let discovery_tokens := DYNAMIC_DISCOVERY_OVERHEAD in
  let loaded_schema_tokens := DYNAMIC_SCHEMAS_LOADED * TOKENS_PER_TOOL_SCHEMA in
  let data_tokens := (10 * NUM_ENTITY_TYPES * TOKENS_PER_ENTITY)%Z * 0.3 in
  (BASE_SYSTEM_PROMPT_TOKENS + meta_tokens + discovery_tokens)%Z
    + loaded_schema_tokens + data_tokens.

(** The [cycles] keyword defaults to [None], which selects the average. *)
Definition cycles_or_avg (cycles : option Z) : Z :=
  match cycles with
  | None => DYNAMIC_CYCLES_AVG
  | Some c => c
  end.

(** The definition at simulation.py:235 replaces the one at line 132 of
    the same name, so this is the function every caller reaches. *)
Definition dynamic_toolset_latency (num_tools : Z) (cycles : option Z) : Q :=
  let cycles := cycles_or_avg cycles in
  let tokens := dynamic_toolset_tokens num_tools in
  let llm_latency :=
    cycles * (LLM_BASE_LATENCY + (tokens / 1000) * LLM_LATENCY_PER_1K_TOKENS) in
  let tool_latency := ((cycles + 1) * TOOL_CALL_LATENCY)%Z in
  llm_latency + tool_latency.

Definition dynamic_toolset_latency_range (num_tools : Z) : Q * Q * Q :=
  let best := dynamic_toolset_latency num_tools (Some DYNAMIC_CYCLES_MIN) in
  let avg := dynamic_toolset_latency num_tools (Some DYNAMIC_CYCLES_AVG) in
  let worst := dynamic_toolset_latency num_tools (Some DYNAMIC_CYCLES_MAX) in
  (best, avg, worst).

(** ** Accuracy model (simulation.py:148-232) *)

Definition full_context_accuracy (num_tools : Z) : Q :=
  let tokens := full_context_tokens num_tools in
  let excess_tokens := Qmax 0 (tokens - CONTEXT_SIZE_ACCURACY_THRESHOLD) in
  let context_loss :=
    Qmin (excess_tokens * CONTEXT_SIZE_ACCURACY_DECAY) MAX_CONTEXT_ACCURACY_LOSS in
  let data_noise_loss := 0.02 in
  1 - context_loss - data_noise_loss.

Definition static_tools_accuracy (num_tools : Z) : Q :=
  let excess_tools := Z.max 0 (wrap64 (num_tools - TOOL_COUNT_ACCURACY_THRESHOLD)) in
  let tool_loss :=
    Qmin (excess_tools * TOOL_COUNT_ACCURACY_DECAY) MAX_TOOL_ACCURACY_LOSS in
  let base_accuracy := 0.98 in
  base_accuracy - tool_loss.

Section AccuracyModel.

(** [np.log10] on an integer element.  The base-10 logarithm has no
    rational closed form, so the dynamic accuracy is given for any
    function standing for it; the properties below say what they need
    of it. *)
Variable log10 : Z -> Q.

(** The two sub-expressions of simulation.py:218. *)
Definition log10_argument (num_tools : Z) : Z := Z.max num_tools 1.

Definition tool_scaling (num_tools : Z) : Q :=
  1 - 0.01 * log10 (log10_argument num_tools).

Definition dynamic_toolset_accuracy (num_tools : Z) (cycles : option Z) : Q :=
  let cycles := cycles_or_avg cycles in
  let discovery_loss := DISCOVERY_FAILURE_BASE_RATE in
  let cycle_success := (1 - DISCOVERY_CYCLE_ERROR_RATE) ^ cycles in
  let tool_scaling := tool_scaling num_tools in
  let base_accuracy := 0.97 in
  base_accuracy * cycle_success * tool_scaling - discovery_loss.

Definition dynamic_toolset_accuracy_range (num_tools : Z) : Q * Q * Q :=
  let best := dynamic_toolset_accuracy num_tools (Some DYNAMIC_CYCLES_MIN) in
  let avg := dynamic_toolset_accuracy num_tools (Some DYNAMIC_CYCLES_AVG) in
  let worst := dynamic_toolset_accuracy num_tools (Some DYNAMIC_CYCLES_MAX) in
  (best, avg, worst).

End AccuracyModel.

(** ** numpy helpers used by the sweeps *)

(** [np.arange(start, stop, step)] for a positive step. *)
Definition arange (start stop step : Z) : list Z :=
  map (fun i => (start + Z.of_nat i * step)%Z)
      (seq 0 (Z.to_nat ((stop - start + step - 1) / step))).

(** Element-wise binary operation on two arrays of one shape. *)
Fixpoint zip_with {A B C : Type} (f : A -> B -> C) (xs : list A) (ys : list B) : list C :=
  match xs, ys with
  | x :: xs', y :: ys' => f x y :: zip_with f xs' ys'
  | _, _ => []
  end.

(** [np.where(mask)[0]]: the indices at which the mask holds, ascending. *)
Fixpoint np_where_from (i : nat) (mask : list bool) : list nat :=
  match mask with
  | [] => []
  | b :: mask' =>
      if b then i :: np_where_from (S i) mask' else np_where_from (S i) mask'
  end.

Definition np_where (mask : list bool) : list nat := np_where_from 0 mask.

(** The array comparison [a > b]. *)
Definition Qgtb (a b : Q) : bool := negb (Qle_bool a b).

(** ** Scenario runner *)

(** A Python call either returns a value or raises an exception, here
    its class name. *)
Inductive outcome (A : Type) : Type :=
| Returned (value : A)
| Raised (exception : string).

Arguments Returned {A} value.
Arguments Raised {A} exception.

(** *** [run_simulation] (simulation.py:294-418) *)

Record StrategySeries : Type := {
  tokens : list Q;
  latency : list Q
}.

Record DynamicSeries : Type := {
  dy_tokens : list Q;
  latency_best : list Q;
  latency_avg : list Q;
  latency_worst : list Q
}.

Record SimulationResult : Type := {
  sim_tool_counts : list Z;
  full_context : StrategySeries;
  static_tools : StrategySeries;
  dynamic_toolset : DynamicSeries
}.

Definition run_simulation_default : list Z :=
  [5; 10; 20; 30; 40; 50; 75; 100; 150; 200]%Z.

(** The function body has no [raise] and no check of its argument: it goes
    from the default straight to the model functions and the [return]. *)
Definition run_simulation (tool_counts : option (list Z)) : outcome SimulationResult :=
  let tool_counts :=
    match tool_counts with
    | None => run_simulation_default
    | Some tc => tc
    end in
  let fc_tokens := map full_context_tokens tool_counts in
  let fc_latency := map full_context_latency tool_counts in
  let st_tokens := map static_tools_tokens tool_counts in
  let st_latency := map static_tools_latency tool_counts in
  let dy_tokens := map dynamic_toolset_tokens tool_counts in
  let dy_lat_best := map (fun n => fst (fst (dynamic_toolset_latency_range n))) tool_counts in
  let dy_lat_avg := map (fun n => snd (fst (dynamic_toolset_latency_range n))) tool_counts in
  let dy_lat_worst := map (fun n => snd (dynamic_toolset_latency_range n)) tool_counts in
  Returned {|
    sim_tool_counts := tool_counts;
    full_context := {| tokens := fc_tokens; latency := fc_latency |};
    static_tools := {| tokens := st_tokens; latency := st_latency |};
    dynamic_toolset := {|
      dy_tokens := dy_tokens;
      latency_best := dy_lat_best;
      latency_avg := dy_lat_avg;
      latency_worst := dy_lat_worst
    |}
  |}.

(** *** [run_crossover_analysis] (simulation.py:421-504) *)

Record CrossoverAnalysis : Type := {
  cross_tool_counts : list Z;
  token_savings_pct : list Q;
  latency_overhead_pct : list Q;
  net_benefit : list Q
}.

Definition run_crossover_analysis_default : list Z := arange 5 205 5.

Definition run_crossover_analysis (tool_counts : option (list Z)) : CrossoverAnalysis :=
  let tool_counts :=
    match tool_counts with
    | None => run_crossover_analysis_default
    | Some tc => tc
    end in
  let static_tokens := map static_tools_tokens tool_counts in
  let dynamic_tokens := map dynamic_toolset_tokens tool_counts in
  let static_latency := map static_tools_latency tool_counts in
  let dynamic_latency := map (fun n => dynamic_toolset_latency n None) tool_counts in
  let token_savings_pct :=
    zip_with (fun s d => (s - d) / s * 100) static_tokens dynamic_tokens in
  let latency_overhead_pct :=
    zip_with (fun d s => (d - s) / s * 100) dynamic_latency static_latency in
  let net_benefit := zip_with Qminus token_savings_pct latency_overhead_pct in
  {|
    cross_tool_counts := tool_counts;
    token_savings_pct := token_savings_pct;
    latency_overhead_pct := latency_overhead_pct;
    net_benefit := net_benefit
  |}.

(** *** The crossover point (simulation.py:460-462 and 963-976)

    [run_crossover_analysis] binds [crossover_start] to draw the crossover
    line, and the tail of [print_summary_table] binds [crossover] to print
    it; both take the indices where the savings percentage exceeds the
    overhead percentage and, when there is one, the tool count at the first
    of them.  [None] is the case where the guarded block is skipped and
    nothing is drawn or printed. *)
Definition crossover_start (tool_counts : list Z) : option Z :=
  let analysis := run_crossover_analysis (Some tool_counts) in
  let crossover_idx :=
    np_where (zip_with Qgtb (token_savings_pct analysis)
                            (latency_overhead_pct analysis)) in
  match crossover_idx with
  | [] => None
  | i :: _ => nth_error tool_counts i
  end.

(** The crossover that [print_summary_table] prints, over its fixed range. *)
Definition print_summary_crossover : option Z :=
  crossover_start (arange 5 300 1).

(** The percentages of one tool count, as the arrays hold them. *)
Definition token_savings_at (n : Z) : Q :=
  (static_tools_tokens n - dynamic_toolset_tokens n) / static_tools_tokens n * 100.

Definition latency_overhead_at (n : Z) : Q :=
  (dynamic_toolset_latency n None - static_tools_latency n) / static_tools_latency n * 100.

Definition favorable (n : Z) : bool :=
  Qgtb (token_savings_at n) (latency_overhead_at n).

(** *** [run_cost_simulation] (simulation.py:507-564) *)

Record CostResult : Type := {
  cost_tool_counts : list Z;
  full_context_cost : list Q;
  static_cost : list Q;
  dynamic_cost : list Q
}.

Definition run_cost_simulation_default : list Z :=
  [10; 20; 30; 40; 50; 75; 100; 150; 200]%Z.

Definition run_cost_simulation
    (tool_counts : option (list Z))
    (queries_per_month : Z) (cost_per_million_tokens : Q) : CostResult :=
  let tool_counts :=
    match tool_counts with
    | None => run_cost_simulation_default
    | Some tc => tc
    end in
  let full_context := map full_context_tokens tool_counts in
  let static := map static_tools_tokens tool_counts in
  let dynamic := map dynamic_toolset_tokens tool_counts in
  let cost_multiplier := queries_per_month * cost_per_million_tokens / 1000000 in
  {|
    cost_tool_counts := tool_counts;
    full_context_cost := map (fun t => t * cost_multiplier) full_context;
    static_cost := map (fun t => t * cost_multiplier) static;
    dynamic_cost := map (fun t => t * cost_multiplier) dynamic
  |}.

(** *** [run_cycle_impact_simulation] (simulation.py:680-784) *)

Record CycleImpact : Type := {
  cycles : list Z;
  accuracies : list Q;
  latencies : list Q
}.

Definition run_cycle_impact_simulation (log10 : Z -> Q) : CycleImpact :=
  let cycles := arange 1 10 1 in
  let tool_counts_example := 50%Z in
  {|
    cycles := cycles;
    accuracies :=
      map (fun c => dynamic_toolset_accuracy log10 tool_counts_example (Some c) * 100) cycles;
    latencies :=
      map (fun c => dynamic_toolset_latency tool_counts_example (Some c)) cycles
  |}.

(** ** Two notions taken from the specification's wording

    They are what the text asks for, written down to be compared with the
    functions above. *)

(** A cycle count clamped into the configured range. *)
Definition clamp_cycles (c : Z) : Z :=
  Z.max DYNAMIC_CYCLES_MIN (Z.min c DYNAMIC_CYCLES_MAX).

(** A sweep input that is empty or holds a negative count. *)
Definition invalid_sweep (tool_counts : list Z) : bool :=
  match tool_counts with
  | [] => true
  | _ => existsb (fun n => n <? 0)%Z tool_counts
  end.

(** The largest tool count on which the accuracy bounds are stated.  It
    is far above every count a 64-bit integer array can hold; past
    10^97.7 the logarithmic factor drives the dynamic accuracy below 0. *)
Definition tool_count_bound : Z := 10 ^ 97.

(** ** An integer logarithm

    The number of decimal digits less one.  It agrees with the base-10
    logarithm on the powers of ten and is monotone, which is all the
    accuracy bounds assume of [np.log10]; it gives a function that
    evaluates at which those assumptions hold. *)
Fixpoint floor_log10_fuel (fuel : nat) (n : Z) : Z :=
  match fuel with
  | O => 0
  | S fuel' => if (n <? 10)%Z then 0 else 1 + floor_log10_fuel fuel' (n / 10)
  end%Z.

Definition floor_log10 (n : Z) : Z :=
  floor_log10_fuel (S (Z.to_nat (Z.log2 n))) n.

Definition floor_log10_Q (n : Z) : Q := inject_Z (floor_log10 n).

(** ** The rest of the module

    The parameters and functions of simulation.py that the sweeps above do
    not reach, or reach only while plotting. *)

(** Parameters (simulation.py:53, 78).  [LATENCY_PER_CYCLE] is defined and
    never read. *)
Definition DYNAMIC_EXTRA_LLM_CALLS : Z := 2.
Definition LATENCY_PER_CYCLE : Z := 600.

(** The first definition of [dynamic_toolset_latency] (simulation.py:132-141),
    which the definition at line 235 replaces. *)
Definition dynamic_toolset_latency_superseded (num_tools : Z) : Q :=
  let tokens := dynamic_toolset_tokens num_tools in
  let llm_latency :=
    (1 + DYNAMIC_EXTRA_LLM_CALLS)%Z
    * (LLM_BASE_LATENCY + (tokens / 1000) * LLM_LATENCY_PER_1K_TOKENS) in
  let tool_latency := (5 * TOOL_CALL_LATENCY)%Z in
  llm_latency + tool_latency.

(** The array comparison [a < b]. *)
Definition Qltb (a b : Q) : bool := negb (Qle_bool b a).

(** *** Latency parity (simulation.py:963-982)

    The last block of [print_summary_table]: the first tool count of the
    range whose latency overhead is under 10 percent, [None] when the
    guarded [print] is skipped. *)
Definition latency_match (test_range : list Z) : option Z :=
  let static_latency := map static_tools_latency test_range in
  let dynamic_latency := map (fun n => dynamic_toolset_latency n None) test_range in
  let latency_overhead :=
    zip_with (fun d s => (d - s) / s * 100) dynamic_latency static_latency in
  let latency_close_idx := np_where (map (fun o => Qltb o 10) latency_overhead) in
  match latency_close_idx with
  | [] => None
  | i :: _ => nth_error test_range i
  end.

Definition print_summary_latency_match : option Z :=
  latency_match (arange 5 300 1).

(** *** [run_accuracy_simulation] (simulation.py:567-677) *)

Record AccuracyResult : Type := {
  acc_tool_counts : list Z;
  res_full_context_accuracy : list Q;
  res_static_tools_accuracy : list Q;
  dynamic_toolset_accuracy_best : list Q;
  dynamic_toolset_accuracy_avg : list Q;
  dynamic_toolset_accuracy_worst : list Q
}.

Definition run_accuracy_simulation_default : list Z := arange 5 205 5.

(** The series are percentages.  Among the plotting calls, the annotation
    at line 617 reads [fc_accuracy[0]], which raises [IndexError] on an
    empty array. *)
Definition run_accuracy_simulation
    (log10 : Z -> Q) (tool_counts : option (list Z)) : outcome AccuracyResult :=
  let tool_counts :=
    match tool_counts with
    | None => run_accuracy_simulation_default
    | Some tc => tc
    end in
  let fc_accuracy := map (fun n => full_context_accuracy n * 100) tool_counts in
  let st_accuracy := map (fun n => static_tools_accuracy n * 100) tool_counts in
  let dy_best :=
    map (fun n => fst (fst (dynamic_toolset_accuracy_range log10 n)) * 100) tool_counts in
  let dy_avg :=
    map (fun n => snd (fst (dynamic_toolset_accuracy_range log10 n)) * 100) tool_counts in
  let dy_worst :=
    map (fun n => snd (dynamic_toolset_accuracy_range log10 n) * 100) tool_counts in
  match nth_error fc_accuracy 0 with
  | None => Raised "IndexError"
  | Some _ =>
      Returned {|
        acc_tool_counts := tool_counts;
        res_full_context_accuracy := fc_accuracy;
        res_static_tools_accuracy := st_accuracy;
        dynamic_toolset_accuracy_best := dy_best;
        dynamic_toolset_accuracy_avg := dy_avg;
        dynamic_toolset_accuracy_worst := dy_worst
      |}
  end.

(** *** Bubble sizes of [run_3d_tradeoff_simulation] (simulation.py:825-826) *)

(** The inner function [acc_to_size]: accuracy percent to bubble size. *)
Definition acc_to_size (acc : Q) : Q := ((acc - 75) / 25) * 300 + 50.

(** ** Ranges of the statements *)

(** The ranges on which the float computations are far from rounding:
    tool counts up to a million for the percentages of the crossover
    analysis, cycle counts up to a hundred for the clamping comparison and
    up to a million for the latency increments. *)
Definition percent_tools_bound : Z := 1000000.
Definition cycles_bound : Z := 100.
Definition increment_cycles_bound : Z := 1000000.

(** ** Properties of the cost model *)

Lemma inject_Z_nonneg (z : Z) : (0 <= z)%Z -> 0 <= inject_Z z.
Proof.
  intro H. change 0 with (inject_Z 0). now rewrite <- Zle_Qle.
Qed.

Lemma wrap64_small (z : Z) : (INT64_MIN <= z <= INT64_MAX)%Z -> wrap64 z = z.
Proof.
  unfold INT64_MIN, INT64_MAX, wrap64. intro H.
  rewrite Z.mod_small by lia. lia.
Qed.

(** Up to the bound no integer operation of [static_tools_tokens] wraps. *)
Lemma static_tools_tokens_closed (n : Z) :
  (0 <= n <= schema_tokens_bound)%Z ->
  static_tools_tokens n == 2300 + 100 * inject_Z n.
Proof.
  unfold schema_tokens_bound. intro Hn.
  unfold static_tools_tokens, BASE_SYSTEM_PROMPT_TOKENS, TOKENS_PER_TOOL_SCHEMA,
    NUM_ENTITY_TYPES, TOKENS_PER_ENTITY.
  rewrite (wrap64_small (n * 100)) by (unfold INT64_MIN, INT64_MAX; lia).
  rewrite (wrap64_small (500 + n * 100)) by (unfold INT64_MIN, INT64_MAX; lia).
  rewrite inject_Z_plus, inject_Z_mult.
  change (inject_Z (10 * 5 * 72)) with (3600 # 1).
  change (inject_Z 500) with (500 # 1). change (inject_Z 100) with (100 # 1).
  lra.
Qed.

Lemma dynamic_toolset_tokens_closed (n : Z) : dynamic_toolset_tokens n == 2055.
Proof. reflexivity. Qed.

Lemma dynamic_toolset_latency_closed (n c : Z) :
  dynamic_toolset_latency n (Some c) == (110275 # 100) * inject_Z c + 200.
Proof.
  unfold dynamic_toolset_latency, cycles_or_avg, TOOL_CALL_LATENCY.
  rewrite inject_Z_mult, inject_Z_plus.
  assert (E : LLM_BASE_LATENCY + dynamic_toolset_tokens n / 1000 * LLM_LATENCY_PER_1K_TOKENS
              == 90275 # 100) by reflexivity.
  rewrite E. change (inject_Z 200) with (200 # 1). change (inject_Z 1) with (1 # 1).
  lra.
Qed.

(** C4: for every non-negative tool count the full-context token count is
    the same constant, the base system-prompt tokens plus entities-per-type
    times entity types times tokens-per-entity, which is 36500 with the
    configured values. *)
Theorem full_context_tokens_constant (num_tools : Z) :
  (0 <= num_tools)%Z ->
  full_context_tokens num_tools
    == BASE_SYSTEM_PROMPT_TOKENS
       + ENTITIES_PER_TYPE * NUM_ENTITY_TYPES * TOKENS_PER_ENTITY
  /\ full_context_tokens num_tools == 36500.
Proof.
  intros _. split; reflexivity.
Qed.

Lemma full_context_tokens_constant_witness :
  full_context_tokens 200
    == BASE_SYSTEM_PROMPT_TOKENS
       + ENTITIES_PER_TYPE * NUM_ENTITY_TYPES * TOKENS_PER_ENTITY
  /\ full_context_tokens 200 == 36500.
Proof.
  apply (full_context_tokens_constant 200). lia.
Defined.

(** C7, as the code has it: at tool count 0 the static-tools token count
    is exactly the base prompt tokens plus the fixed partial-data overhead,
    the schema term being zero; and for tool counts 0 <= a <= b up to
    92233720368547753, the largest count whose schema tokens plus base
    prompt fit a 64-bit integer, the count at a is at most the count at
    b. *)
Theorem static_tools_tokens_monotone :
  static_tools_tokens 0
    == BASE_SYSTEM_PROMPT_TOKENS + 0
       + (10 * NUM_ENTITY_TYPES * TOKENS_PER_ENTITY)%Z * 0.5
  /\ forall a b : Z, (0 <= a)%Z -> (a <= b)%Z -> (b <= schema_tokens_bound)%Z ->
       static_tools_tokens a <= static_tools_tokens b.
Proof.
  split; [reflexivity|].
  intros a b Ha Hab Hb. rewrite !static_tools_tokens_closed by lia.
  rewrite Zle_Qle in Hab. lra.
Qed.

Lemma static_tools_tokens_monotone_witness :
  static_tools_tokens 5 <= static_tools_tokens 92233720368547753.
Proof.
  apply (proj2 static_tools_tokens_monotone 5%Z 92233720368547753%Z);
    unfold schema_tokens_bound; lia.
Defined.

(** C7, as the specification words it, fails: 5 <= 92233720368547759 are
    non-negative tool counts, the schema tokens of the larger one wrap
    around 64 bits, and its token count is far below that of 5 tools. *)
Lemma static_tools_tokens_wrap_breaks_monotonicity :
  (0 <= 5 <= 92233720368547759)%Z
  /\ (92233720368547759 <= INT64_MAX)%Z
  /\ static_tools_tokens 5 == 2800
  /\ static_tools_tokens 92233720368547759 < 0
  /\ ~ static_tools_tokens 5 <= static_tools_tokens 92233720368547759.
Proof.
  split; [lia|]. split; [unfold INT64_MAX; lia|].
  split; [reflexivity|]. split; [reflexivity|].
  vm_compute. intro H. apply H. reflexivity.
Qed.

(** The latency of the dynamic toolset grows strictly with the cycle
    count, whatever the two counts are. *)
Lemma dynamic_toolset_latency_increasing (n c1 c2 : Z) :
  (c1 < c2)%Z ->
  dynamic_toolset_latency n (Some c1) < dynamic_toolset_latency n (Some c2).
Proof.
  intro H. rewrite !dynamic_toolset_latency_closed.
  rewrite Zlt_Qlt in H. lra.
Qed.

(** C5: for every non-negative tool count, the dynamic-toolset latency at
    the configured maximum cycle count is strictly greater than at the
    configured minimum; the range function's worst exceeds its best. *)
Theorem dynamic_latency_max_above_min (num_tools : Z) :
  (0 <= num_tools)%Z ->
  dynamic_toolset_latency num_tools (Some DYNAMIC_CYCLES_MIN)
    < dynamic_toolset_latency num_tools (Some DYNAMIC_CYCLES_MAX)
  /\ fst (fst (dynamic_toolset_latency_range num_tools))
       < snd (dynamic_toolset_latency_range num_tools).
Proof.
  intros _.
  assert (H : dynamic_toolset_latency num_tools (Some DYNAMIC_CYCLES_MIN)
              < dynamic_toolset_latency num_tools (Some DYNAMIC_CYCLES_MAX)).
  { apply dynamic_toolset_latency_increasing. reflexivity. }
  split; [exact H|]. unfold dynamic_toolset_latency_range. cbn [fst snd]. exact H.
Qed.

Lemma dynamic_latency_max_above_min_witness :
  dynamic_toolset_latency 50 (Some DYNAMIC_CYCLES_MIN)
    < dynamic_toolset_latency 50 (Some DYNAMIC_CYCLES_MAX)
  /\ fst (fst (dynamic_toolset_latency_range 50))
       < snd (dynamic_toolset_latency_range 50).
Proof.
  apply (dynamic_latency_max_above_min 50). lia.
Defined.

(** C6: with the default constants, at 50 tools and the average cycle
    count 3, the dynamic toolset is slower than the static tools and uses
    fewer tokens. *)
Theorem dynamic_trades_latency_for_tokens_at_50 :
  static_tools_latency 50 < dynamic_toolset_latency 50 (Some 3%Z)
  /\ static_tools_latency 50 < dynamic_toolset_latency 50 None
  /\ dynamic_toolset_tokens 50 < static_tools_tokens 50.
Proof.
  repeat split; vm_compute; reflexivity.
Qed.

(** ** Monthly cost *)

Lemma Forall2_map_r {A B : Type} (R : A -> B -> Prop) (f : A -> B) (xs : list A) :
  (forall x, R x (f x)) -> Forall2 R xs (map f xs).
Proof.
  intro H. induction xs as [|x xs IH]; cbn; constructor; auto.
Qed.

(** C9: with 1,000,000 queries per month at 3.0 per million tokens, the
    monthly cost of every strategy at every swept tool count is that
    strategy's tokens per query times 3. *)
Theorem monthly_cost_is_tokens_times_three (tool_counts : option (list Z)) :
  let swept :=
    match tool_counts with
    | None => run_cost_simulation_default
    | Some tc => tc
    end in
  let r := run_cost_simulation tool_counts 1000000 3 in
  cost_tool_counts r = swept
  /\ Forall2 (fun n cost => cost == full_context_tokens n * 3)
             swept (full_context_cost r)
  /\ Forall2 (fun n cost => cost == static_tools_tokens n * 3)
             swept (static_cost r)
  /\ Forall2 (fun n cost => cost == dynamic_toolset_tokens n * 3)
             swept (dynamic_cost r).
Proof.
  assert (E : inject_Z 1000000 * 3 / 1000000 == 3) by reflexivity.
  cbn zeta. unfold run_cost_simulation.
  cbn [cost_tool_counts full_context_cost static_cost dynamic_cost].
  rewrite !map_map. split; [reflexivity|].
  repeat split; apply Forall2_map_r; intro n; rewrite E; reflexivity.
Qed.

Lemma monthly_cost_is_tokens_times_three_witness :
  let r := run_cost_simulation (Some [10; 200]%Z) 1000000 3 in
  cost_tool_counts r = [10; 200]%Z
  /\ Forall2 (fun n cost => cost == full_context_tokens n * 3)
             [10; 200]%Z (full_context_cost r)
  /\ Forall2 (fun n cost => cost == static_tools_tokens n * 3)
             [10; 200]%Z (static_cost r)
  /\ Forall2 (fun n cost => cost == dynamic_toolset_tokens n * 3)
             [10; 200]%Z (dynamic_cost r).
Proof.
  exact (monthly_cost_is_tokens_times_three (Some [10; 200]%Z)).
Defined.

Example monthly_cost_default_sweep :
  map Qred (static_cost (run_cost_simulation None 1000000 3))
  = [9900; 12900; 15900; 18900; 21900; 29400; 36900; 51900; 66900].
Proof. vm_compute. reflexivity. Qed.

(** ** Crossover *)

Lemma Qgtb_lt (a b : Q) : Qgtb a b = true <-> b < a.
Proof.
  unfold Qgtb. rewrite negb_true_iff, <- not_true_iff_false, Qle_bool_iff.
  split; [apply Qnot_le_lt | apply Qlt_not_le].
Qed.

Lemma favorable_spec (n : Z) :
  favorable n = true <-> latency_overhead_at n < token_savings_at n.
Proof. apply Qgtb_lt. Qed.

Lemma zip_with_map {A B C D : Type} (f : B -> C -> D) (g : A -> B) (h : A -> C) xs :
  zip_with f (map g xs) (map h xs) = map (fun x => f (g x) (h x)) xs.
Proof.
  induction xs as [|x xs IH]; cbn; [reflexivity | now rewrite IH].
Qed.

Lemma np_where_from_shift (i : nat) (mask : list bool) :
  np_where_from (S i) mask = map S (np_where_from i mask).
Proof.
  revert i. induction mask as [|b mask IH]; intro i; cbn; [reflexivity|].
  destruct b; cbn; now rewrite IH.
Qed.

(** Taking the element at the first index of [np.where] is [find]. *)
Lemma first_where_is_find {A : Type} (p : A -> bool) (xs : list A) :
  match np_where (map p xs) with
  | [] => None
  | i :: _ => nth_error xs i
  end = find p xs.
Proof.
  unfold np_where. induction xs as [|x xs IH]; cbn; [reflexivity|].
  destruct (p x); cbn; [reflexivity|].
  rewrite np_where_from_shift, <- IH.
  destruct (np_where_from 0 (map p xs)); reflexivity.
Qed.

(** The series of the analysis hold the percentages of each tool count,
    and the crossover is the first favorable count of the input. *)
Lemma run_crossover_analysis_series (tool_counts : list Z) :
  let analysis := run_crossover_analysis (Some tool_counts) in
  token_savings_pct analysis = map token_savings_at tool_counts
  /\ latency_overhead_pct analysis = map latency_overhead_at tool_counts
  /\ net_benefit analysis
     = map (fun n => token_savings_at n - latency_overhead_at n) tool_counts.
Proof.
  unfold run_crossover_analysis;
    cbn [token_savings_pct latency_overhead_pct net_benefit].
  rewrite !zip_with_map. repeat split.
Qed.

Lemma crossover_start_find (tool_counts : list Z) :
  crossover_start tool_counts = find favorable tool_counts.
Proof.
  unfold crossover_start.
  destruct (run_crossover_analysis_series tool_counts) as (-> & -> & _).
  rewrite zip_with_map. apply (first_where_is_find favorable).
Qed.

(** On non-negative tool counts up to the wrap-around bound both
    denominators are positive, so the percentages are quotients by a
    non-zero number. *)
Lemma denominators_positive (n : Z) :
  (0 <= n <= schema_tokens_bound)%Z ->
  0 < static_tools_tokens n /\ 0 < static_tools_latency n.
Proof.
  intro Hb. pose proof (inject_Z_nonneg n (proj1 Hb)) as Hn.
  assert (E : static_tools_latency n == 1515 + 5 * inject_Z n).
  { unfold static_tools_latency. rewrite static_tools_tokens_closed by exact Hb.
    unfold LLM_BASE_LATENCY, LLM_LATENCY_PER_1K_TOKENS, TOOL_CALL_LATENCY.
    change (inject_Z (3 * 200)) with (600 # 1).
    change (inject_Z 800) with (800 # 1). change (inject_Z 50) with (50 # 1).
    field. }
  rewrite E, static_tools_tokens_closed by exact Hb. split; lra.
Qed.

Lemma find_sorted_least (p : Z -> bool) (xs : list Z) (x : Z) :
  StronglySorted Z.le xs -> find p xs = Some x ->
  forall y, In y xs -> p y = true -> (x <= y)%Z.
Proof.
  induction 1 as [|a xs Hs IH Ha]; cbn; [discriminate|].
  destruct (p a) eqn:Hpa.
  - intros [= <-] y [<- | Hy] _; [lia|].
    rewrite Forall_forall in Ha. now apply Ha.
  - intros Hf y [<- | Hy] Hpy; [congruence | now apply IH].
Qed.

(** C1: on an ascending sweep of (non-negative) tool counts the crossover
    is the smallest swept count whose token-savings percentage exceeds its
    latency-overhead percentage, that is whose net benefit is positive; if
    no swept count is such, there is no crossover value at all. *)
Theorem crossover_smallest_or_not_found (tool_counts : list Z) :
  StronglySorted Z.le tool_counts ->
  Forall (fun n => (0 <= n)%Z) tool_counts ->
  match crossover_start tool_counts with
  | Some tc =>
      In tc tool_counts
      /\ latency_overhead_at tc < token_savings_at tc
      /\ 0 < token_savings_at tc - latency_overhead_at tc
      /\ forall n, In n tool_counts ->
           latency_overhead_at n < token_savings_at n -> (tc <= n)%Z
  | None =>
      forall n, In n tool_counts -> ~ latency_overhead_at n < token_savings_at n
  end.
Proof.
  intros Hsorted _. rewrite crossover_start_find.
  destruct (find favorable tool_counts) as [tc|] eqn:Hfind.
  - destruct (find_some _ _ Hfind) as [Hin Hfav].
    apply favorable_spec in Hfav. repeat split; [assumption | assumption | lra |].
    intros n Hn Hlt. apply (find_sorted_least favorable tool_counts); auto.
    now apply favorable_spec.
  - intros n Hn Hlt. apply favorable_spec in Hlt.
    pose proof (find_none _ _ Hfind n Hn). congruence.
Qed.

Lemma crossover_smallest_or_not_found_witness :
  match crossover_start [5; 50; 85; 100; 200]%Z with
  | Some tc =>
      In tc [5; 50; 85; 100; 200]%Z
      /\ latency_overhead_at tc < token_savings_at tc
      /\ 0 < token_savings_at tc - latency_overhead_at tc
      /\ forall n, In n [5; 50; 85; 100; 200]%Z ->
           latency_overhead_at n < token_savings_at n -> (tc <= n)%Z
  | None =>
      forall n, In n [5; 50; 85; 100; 200]%Z ->
        ~ latency_overhead_at n < token_savings_at n
  end.
Proof.
  apply (crossover_smallest_or_not_found [5; 50; 85; 100; 200]%Z).
  - repeat (constructor; try lia).
  - repeat (constructor; try lia).
Defined.

Example crossover_default_sweep :
  crossover_start run_crossover_analysis_default = Some 85%Z
  /\ print_summary_crossover = Some 85%Z.
Proof. split; vm_compute; reflexivity. Qed.

Example crossover_not_found_below_85 :
  crossover_start (arange 5 85 1) = None.
Proof. vm_compute. reflexivity. Qed.

(** ** The integer logarithm is a logarithm on the powers of ten *)

Lemma floor_log10_fuel_spec (fuel : nat) (n : Z) :
  (1 <= n < 2 ^ Z.of_nat fuel)%Z ->
  (0 <= floor_log10_fuel fuel n
   /\ 10 ^ floor_log10_fuel fuel n <= n < 10 ^ (floor_log10_fuel fuel n + 1))%Z.
Proof.
  revert n. induction fuel as [|fuel IH]; intros n Hn.
  - cbn in Hn. lia.
  - cbn [floor_log10_fuel]. destruct (Z.ltb_spec n 10) as [Hlt | Hge].
    + cbn. lia.
    + rewrite Nat2Z.inj_succ, Z.pow_succ_r in Hn by lia.
      assert (Hdiv : (10 * (n / 10) <= n < 10 * (n / 10) + 10)%Z).
      { pose proof (Z.div_mod n 10 ltac:(lia)).
        pose proof (Z.mod_pos_bound n 10 ltac:(lia)). lia. }
      destruct (IH (n / 10)%Z ltac:(lia)) as (H0 & Hlo & Hhi).
      set (r := floor_log10_fuel fuel (n / 10)) in *.
      replace (1 + r + 1)%Z with (Z.succ (r + 1)) by lia.
      replace (1 + r)%Z with (Z.succ r) by lia.
      rewrite !Z.pow_succ_r by lia. lia.
Qed.

Lemma floor_log10_spec (n : Z) :
  (1 <= n)%Z ->
  (0 <= floor_log10 n /\ 10 ^ floor_log10 n <= n < 10 ^ (floor_log10 n + 1))%Z.
Proof.
  intro Hn. apply floor_log10_fuel_spec.
  rewrite Nat2Z.inj_succ, Z2Nat.id by apply Z.log2_nonneg.
  pose proof (Z.log2_spec n ltac:(lia)). lia.
Qed.

Lemma floor_log10_mono (a b : Z) :
  (1 <= a <= b)%Z -> (floor_log10 a <= floor_log10 b)%Z.
Proof.
  intros [Ha Hab].
  destruct (floor_log10_spec a Ha) as (Ha0 & Halo & _).
  destruct (floor_log10_spec b ltac:(lia)) as (Hb0 & _ & Hbhi).
  assert (H : (10 ^ floor_log10 a < 10 ^ (floor_log10 b + 1))%Z) by lia.
  apply Z.pow_lt_mono_r_iff in H; lia.
Qed.

Lemma floor_log10_pow10 (k : Z) : (0 <= k)%Z -> floor_log10 (10 ^ k) = k.
Proof.
  intro Hk.
  assert (Hpos : (1 <= 10 ^ k)%Z) by (pose proof (Z.pow_pos_nonneg 10 k); lia).
  destruct (floor_log10_spec _ Hpos) as (H0 & Hlo & Hhi).
  apply Z.pow_le_mono_r_iff in Hlo; try lia.
  apply Z.pow_lt_mono_r_iff in Hhi; lia.
Qed.

Lemma floor_log10_Q_one : floor_log10_Q 1 == 0.
Proof. reflexivity. Qed.

Lemma floor_log10_Q_mono (a b : Z) :
  (1 <= a <= b)%Z -> floor_log10_Q a <= floor_log10_Q b.
Proof.
  intro H. unfold floor_log10_Q. rewrite <- Zle_Qle. now apply floor_log10_mono.
Qed.

Lemma floor_log10_Q_pow10 (k : Z) :
  (0 <= k)%Z -> floor_log10_Q (10 ^ k) == inject_Z k.
Proof.
  intro H. unfold floor_log10_Q. now rewrite floor_log10_pow10.
Qed.

(** ** Accuracy *)

Lemma full_context_accuracy_value (n : Z) : full_context_accuracy n == 0.83.
Proof. reflexivity. Qed.

Lemma static_tools_accuracy_bounds (n : Z) :
  0.78 <= static_tools_accuracy n <= 0.98.
Proof.
  unfold static_tools_accuracy.
  set (loss := inject_Z (Z.max 0 (wrap64 (n - TOOL_COUNT_ACCURACY_THRESHOLD)))
               * TOOL_COUNT_ACCURACY_DECAY).
  assert (Hloss : 0 <= loss).
  { apply Qmult_le_0_compat; [apply inject_Z_nonneg; lia | discriminate]. }
  pose proof (Q.le_min_r loss MAX_TOOL_ACCURACY_LOSS) as Hup.
  assert (Hlow : 0 <= Qmin loss MAX_TOOL_ACCURACY_LOSS).
  { apply Q.min_glb; [exact Hloss | discriminate]. }
  unfold MAX_TOOL_ACCURACY_LOSS in *. split; lra.
Qed.

Lemma cycle_success_bounds (c : Z) :
  (DYNAMIC_CYCLES_MIN <= c <= DYNAMIC_CYCLES_MAX)%Z ->
  0.91 <= (1 - DISCOVERY_CYCLE_ERROR_RATE) ^ c <= 1.
Proof.
  unfold DYNAMIC_CYCLES_MIN, DYNAMIC_CYCLES_MAX. intro H.
  assert (Hc : (c = 2 \/ c = 3 \/ c = 4 \/ c = 5 \/ c = 6)%Z) by lia.
  destruct Hc as [-> | [-> | [-> | [-> | ->]]]]; split; vm_compute; discriminate.
Qed.

(** The success factor of the cycles shrinks strictly with every further
    cycle, for any two integer cycle counts. *)
Lemma cycle_success_decreasing (c1 c2 : Z) :
  (c1 < c2)%Z ->
  (1 - DISCOVERY_CYCLE_ERROR_RATE) ^ c2 < (1 - DISCOVERY_CYCLE_ERROR_RATE) ^ c1.
Proof.
  intro H.
  assert (E : 1 - DISCOVERY_CYCLE_ERROR_RATE == / (200 # 197)) by reflexivity.
  rewrite E, !Qinv_power.
  assert (H1 : 1 < 200 # 197) by reflexivity.
  assert (H0 : 0 < 200 # 197) by reflexivity.
  apply -> Qinv_lt_contravar; try (apply Qpower_0_lt; exact H0).
  now apply Qpower_lt_compat_l.
Qed.

Section AccuracyProperties.

(** What the bounds use of the base-10 logarithm. *)
Variable log10 : Z -> Q.
Hypothesis log10_one : log10 1 == 0.
Hypothesis log10_mono : forall a b : Z, (1 <= a <= b)%Z -> log10 a <= log10 b.
Hypothesis log10_pow10 : forall k : Z, (0 <= k)%Z -> log10 (10 ^ k) == inject_Z k.

Lemma log10_argument_ge_1 (n : Z) : (1 <= log10_argument n)%Z.
Proof. unfold log10_argument. lia. Qed.

Lemma tool_scaling_bounds (n : Z) :
  (0 <= n <= tool_count_bound)%Z -> 0.03 <= tool_scaling log10 n <= 1.
Proof.
  intros [Hn0 Hn]. unfold tool_scaling.
  pose proof (log10_argument_ge_1 n) as H1.
  assert (Hm : (log10_argument n <= tool_count_bound)%Z).
  { unfold log10_argument. apply Z.max_lub; [exact Hn | unfold tool_count_bound; lia]. }
  pose proof (log10_mono 1 (log10_argument n) (conj (Z.le_refl 1) H1)) as Hlo.
  pose proof (log10_mono (log10_argument n) (10 ^ 97) (conj H1 Hm)) as Hhi.
  rewrite log10_one in Hlo. rewrite (log10_pow10 97) in Hhi by lia.
  change (inject_Z 97) with (97 # 1) in Hhi. split; lra.
Qed.

Lemma dynamic_toolset_accuracy_bounds (n c : Z) :
  (0 <= n <= tool_count_bound)%Z ->
  (DYNAMIC_CYCLES_MIN <= c <= DYNAMIC_CYCLES_MAX)%Z ->
  0 <= dynamic_toolset_accuracy log10 n (Some c) <= 1.
Proof.
  intros Hn Hc. unfold dynamic_toolset_accuracy, cycles_or_avg.
  pose proof (tool_scaling_bounds n Hn) as Hts.
  pose proof (cycle_success_bounds c Hc) as Hcs.
  set (ts := tool_scaling log10 n) in *.
  set (cs := (1 - DISCOVERY_CYCLE_ERROR_RATE) ^ c) in *.
  unfold DISCOVERY_FAILURE_BASE_RATE. split; nra.
Qed.

(** C2: for every tool count from 0 up to the bound and every cycle count
    in the configured range (or none, which means the average), the
    full-context, static-tools and dynamic-toolset accuracies all lie in
    the closed interval from 0 to 1. *)
Theorem accuracies_in_unit_interval (num_tools c : Z) :
  (0 <= num_tools <= tool_count_bound)%Z ->
  (DYNAMIC_CYCLES_MIN <= c <= DYNAMIC_CYCLES_MAX)%Z ->
  0 <= full_context_accuracy num_tools <= 1
  /\ 0 <= static_tools_accuracy num_tools <= 1
  /\ 0 <= dynamic_toolset_accuracy log10 num_tools (Some c) <= 1
  /\ 0 <= dynamic_toolset_accuracy log10 num_tools None <= 1.
Proof.
  intros Hn Hc. repeat apply conj.
  - rewrite full_context_accuracy_value. discriminate.
  - rewrite full_context_accuracy_value. discriminate.
  - pose proof (static_tools_accuracy_bounds num_tools). lra.
  - pose proof (static_tools_accuracy_bounds num_tools). lra.
  - now apply dynamic_toolset_accuracy_bounds.
  - now apply dynamic_toolset_accuracy_bounds.
  - apply (dynamic_toolset_accuracy_bounds num_tools DYNAMIC_CYCLES_AVG Hn).
    unfold DYNAMIC_CYCLES_MIN, DYNAMIC_CYCLES_AVG, DYNAMIC_CYCLES_MAX. lia.
  - apply (dynamic_toolset_accuracy_bounds num_tools DYNAMIC_CYCLES_AVG Hn).
    unfold DYNAMIC_CYCLES_MIN, DYNAMIC_CYCLES_AVG, DYNAMIC_CYCLES_MAX. lia.
Qed.

(** The bound on the tool count is needed: nothing clamps the result, and
    at 10^98 tools with the maximum cycle count the value is negative. *)
Lemma dynamic_toolset_accuracy_negative_past_bound :
  dynamic_toolset_accuracy log10 (10 ^ 98) (Some DYNAMIC_CYCLES_MAX) < 0.
Proof.
  unfold dynamic_toolset_accuracy, cycles_or_avg, tool_scaling.
  change (log10_argument (10 ^ 98)) with (10 ^ 98)%Z.
  rewrite (log10_pow10 98) by lia.
  vm_compute. reflexivity.
Qed.

(** C10: at tool count 0, with any cycle count, the dynamic-toolset
    accuracy is well defined: the argument of the logarithm is clamped
    to at least 1 for every tool count, so the tool-scaling factor is 1
    at 0 tools and the accuracy at 0 tools is the accuracy at 1 tool. *)
Theorem dynamic_accuracy_at_zero_tools (cycles : option Z) :
  (forall num_tools : Z, (1 <= log10_argument num_tools)%Z)
  /\ log10_argument 0 = 1%Z
  /\ tool_scaling log10 0 == 1
  /\ dynamic_toolset_accuracy log10 0 cycles
     == dynamic_toolset_accuracy log10 1 cycles.
Proof.
  split; [exact log10_argument_ge_1|]. split; [reflexivity|]. split.
  - unfold tool_scaling. change (log10_argument 0) with 1%Z.
    rewrite log10_one. reflexivity.
  - reflexivity.
Qed.

(** C8, as the code has it: the cycle count passed to the latency and
    accuracy functions is used as it is and is not clamped: for cycle
    counts from 0 to 100 and tool counts up to the bound, a count below the
    configured minimum gives a strictly smaller latency and a strictly
    larger accuracy than the minimum does, and a count above the configured
    maximum a strictly larger latency and a strictly smaller accuracy than
    the maximum does; when no cycle count is supplied the configured
    average is used. *)
Theorem cycle_count_used_as_given (num_tools c : Z) :
  (0 <= num_tools <= tool_count_bound)%Z ->
  (0 <= c <= cycles_bound)%Z ->
  ((c < DYNAMIC_CYCLES_MIN)%Z ->
     dynamic_toolset_latency num_tools (Some c)
       < dynamic_toolset_latency num_tools (Some DYNAMIC_CYCLES_MIN)
     /\ dynamic_toolset_accuracy log10 num_tools (Some DYNAMIC_CYCLES_MIN)
          < dynamic_toolset_accuracy log10 num_tools (Some c))
  /\ ((DYNAMIC_CYCLES_MAX < c)%Z ->
       dynamic_toolset_latency num_tools (Some DYNAMIC_CYCLES_MAX)
         < dynamic_toolset_latency num_tools (Some c)
       /\ dynamic_toolset_accuracy log10 num_tools (Some c)
            < dynamic_toolset_accuracy log10 num_tools (Some DYNAMIC_CYCLES_MAX))
  /\ dynamic_toolset_latency num_tools None
     == dynamic_toolset_latency num_tools (Some DYNAMIC_CYCLES_AVG)
  /\ dynamic_toolset_accuracy log10 num_tools None
     == dynamic_toolset_accuracy log10 num_tools (Some DYNAMIC_CYCLES_AVG).
Proof.
  intros Hn _.
  assert (Hacc : forall c1 c2 : Z, (c1 < c2)%Z ->
            dynamic_toolset_accuracy log10 num_tools (Some c2)
              < dynamic_toolset_accuracy log10 num_tools (Some c1)).
  { intros c1 c2 Hc. unfold dynamic_toolset_accuracy, cycles_or_avg.
    pose proof (tool_scaling_bounds num_tools Hn) as Hts.
    pose proof (cycle_success_decreasing c1 c2 Hc) as Hcs.
    set (ts := tool_scaling log10 num_tools) in *.
    set (p1 := (1 - DISCOVERY_CYCLE_ERROR_RATE) ^ c1) in *.
    set (p2 := (1 - DISCOVERY_CYCLE_ERROR_RATE) ^ c2) in *.
    nra. }
  split; [|split; [|split; reflexivity]]; intro Hc; split.
  - now apply dynamic_toolset_latency_increasing.
  - now apply Hacc.
  - now apply dynamic_toolset_latency_increasing.
  - now apply Hacc.
Qed.

End AccuracyProperties.

Lemma accuracies_in_unit_interval_witness :
  0 <= full_context_accuracy 9223372036854775807 <= 1
  /\ 0 <= static_tools_accuracy 9223372036854775807 <= 1
  /\ 0 <= dynamic_toolset_accuracy floor_log10_Q 9223372036854775807 (Some 6%Z) <= 1
  /\ 0 <= dynamic_toolset_accuracy floor_log10_Q 9223372036854775807 None <= 1.
Proof.
  apply (accuracies_in_unit_interval floor_log10_Q
           floor_log10_Q_one floor_log10_Q_mono floor_log10_Q_pow10).
  - unfold tool_count_bound. lia.
  - unfold DYNAMIC_CYCLES_MIN, DYNAMIC_CYCLES_MAX. lia.
Defined.

Lemma dynamic_accuracy_at_zero_tools_witness :
  (forall num_tools : Z, (1 <= log10_argument num_tools)%Z)
  /\ log10_argument 0 = 1%Z
  /\ tool_scaling floor_log10_Q 0 == 1
  /\ dynamic_toolset_accuracy floor_log10_Q 0 (Some 6%Z)
     == dynamic_toolset_accuracy floor_log10_Q 1 (Some 6%Z).
Proof.
  apply (dynamic_accuracy_at_zero_tools floor_log10_Q floor_log10_Q_one).
Defined.

Lemma cycle_count_used_as_given_witness :
  dynamic_toolset_latency 50 (Some DYNAMIC_CYCLES_MAX)
    < dynamic_toolset_latency 50 (Some 9%Z)
  /\ dynamic_toolset_accuracy floor_log10_Q 50 (Some 9%Z)
       < dynamic_toolset_accuracy floor_log10_Q 50 (Some DYNAMIC_CYCLES_MAX).
Proof.
  apply (cycle_count_used_as_given floor_log10_Q
           floor_log10_Q_one floor_log10_Q_mono floor_log10_Q_pow10 50%Z 9%Z).
  - unfold tool_count_bound. lia.
  - unfold cycles_bound. lia.
  - unfold DYNAMIC_CYCLES_MAX. lia.
Defined.

(** C8, as the specification words it, fails: the cycle-impact sweep passes
    the cycle count 9, clamping would make it 6, and the latency computed
    for 9 is not the latency for 6. *)
Lemma cycle_count_not_clamped :
  In 9%Z (cycles (run_cycle_impact_simulation floor_log10_Q))
  /\ clamp_cycles 9 = 6%Z
  /\ dynamic_toolset_latency 50 (Some 9%Z) == 40499 # 4
  /\ dynamic_toolset_latency 50 (Some (clamp_cycles 9)) == 13633 # 2
  /\ ~ dynamic_toolset_latency 50 (Some 9%Z)
       == dynamic_toolset_latency 50 (Some (clamp_cycles 9)).
Proof.
  split; [vm_compute; tauto|]. repeat split. vm_compute. discriminate.
Qed.

(** ** Input validation of the sweep entry point *)

(** C3, as the specification words it, fails: the empty sweep and a sweep
    with a negative count are both invalid, and [run_simulation] returns a
    report for each instead of raising. *)
Lemma run_simulation_accepts_invalid_sweeps :
  invalid_sweep [] = true
  /\ run_simulation (Some [])
     = Returned {|
         sim_tool_counts := [];
         full_context := {| tokens := []; latency := [] |};
         static_tools := {| tokens := []; latency := [] |};
         dynamic_toolset := {| dy_tokens := []; latency_best := [];
                               latency_avg := []; latency_worst := [] |}
       |}
  /\ invalid_sweep [(-5)%Z] = true
  /\ (exists r, run_simulation (Some [(-5)%Z]) = Returned r
                /\ map Qred (tokens (static_tools r)) = [1800])
  /\ (forall e, run_simulation (Some []) <> Raised e)
  /\ (forall e, run_simulation (Some [(-5)%Z]) <> Raised e).
Proof.
  split; [reflexivity|]. split; [reflexivity|]. split; [reflexivity|].
  split; [|split; intros e; discriminate].
  eexists. split; [reflexivity|]. vm_compute. reflexivity.
Qed.

(** C3, as the code has it: the sweep entry point does not validate its
    input.  For every tool-count sequence, an empty one or one with
    negative counts included, it returns a report over exactly the given
    counts, each series holding the model's value at each count. *)
Theorem run_simulation_never_rejects (tool_counts : list Z) :
  exists r : SimulationResult,
    run_simulation (Some tool_counts) = Returned r
    /\ sim_tool_counts r = tool_counts
    /\ tokens (full_context r) = map full_context_tokens tool_counts
    /\ latency (full_context r) = map full_context_latency tool_counts
    /\ tokens (static_tools r) = map static_tools_tokens tool_counts
    /\ latency (static_tools r) = map static_tools_latency tool_counts
    /\ dy_tokens (dynamic_toolset r) = map dynamic_toolset_tokens tool_counts
    /\ latency_best (dynamic_toolset r)
       = map (fun n => dynamic_toolset_latency n (Some DYNAMIC_CYCLES_MIN)) tool_counts
    /\ latency_avg (dynamic_toolset r)
       = map (fun n => dynamic_toolset_latency n (Some DYNAMIC_CYCLES_AVG)) tool_counts
    /\ latency_worst (dynamic_toolset r)
       = map (fun n => dynamic_toolset_latency n (Some DYNAMIC_CYCLES_MAX)) tool_counts
    /\ List.length (tokens (static_tools r)) = List.length tool_counts.
Proof.
  eexists. split; [reflexivity|]. cbn.
  repeat split. apply length_map.
Qed.

(** ** Further properties of the cost model *)

Lemma static_tools_latency_closed (n : Z) :
  (0 <= n <= schema_tokens_bound)%Z ->
  static_tools_latency n == 1515 + 5 * inject_Z n.
Proof.
  intro Hn. unfold static_tools_latency.
  rewrite static_tools_tokens_closed by exact Hn.
  unfold LLM_BASE_LATENCY, LLM_LATENCY_PER_1K_TOKENS, TOOL_CALL_LATENCY.
  change (inject_Z (3 * 200)) with (600 # 1).
  change (inject_Z 800) with (800 # 1). change (inject_Z 50) with (50 # 1).
  field.
Qed.

Lemma full_context_latency_closed (n : Z) : full_context_latency n == 2625.
Proof. reflexivity. Qed.

Lemma dynamic_toolset_latency_default (n : Z) :
  dynamic_toolset_latency n None == 14033 # 4.
Proof. reflexivity. Qed.

(** X1: for tool counts from 0 up to the wrap-around bound, the
    static-tools latency is below the full-context latency exactly for
    tool counts under 222; from 222 tools on, loading every schema costs
    at least as much time as loading all the data. *)
Theorem static_latency_below_full_context_iff (num_tools : Z) :
  (0 <= num_tools <= schema_tokens_bound)%Z ->
  (static_tools_latency num_tools < full_context_latency num_tools
   <-> (num_tools < 222)%Z).
Proof.
  intro Hn.
  rewrite static_tools_latency_closed by exact Hn.
  rewrite full_context_latency_closed.
  rewrite (Zlt_Qlt num_tools 222). change (inject_Z 222) with (222 # 1).
  split; intro H; lra.
Qed.

Lemma static_latency_below_full_context_iff_witness :
  static_tools_latency 221 < full_context_latency 221 <-> (221 < 222)%Z.
Proof.
  apply (static_latency_below_full_context_iff 221).
  unfold schema_tokens_bound. lia.
Defined.

(** X2: for every tool count from 0 up to the wrap-around bound the
    dynamic toolset uses fewer tokens than the static tools; the static
    tools use fewer tokens than the full context exactly for tool counts
    under 342. *)
Theorem token_ordering (num_tools : Z) :
  (0 <= num_tools <= schema_tokens_bound)%Z ->
  dynamic_toolset_tokens num_tools < static_tools_tokens num_tools
  /\ (static_tools_tokens num_tools < full_context_tokens num_tools
      <-> (num_tools < 342)%Z).
Proof.
  intro Hb. pose proof (inject_Z_nonneg num_tools (proj1 Hb)) as Hn.
  rewrite static_tools_tokens_closed by exact Hb.
  rewrite dynamic_toolset_tokens_closed.
  assert (E : full_context_tokens num_tools == 36500) by reflexivity.
  rewrite E, (Zlt_Qlt num_tools 342). change (inject_Z 342) with (342 # 1).
  split; [lra | split; intro H; lra].
Qed.

Lemma token_ordering_witness :
  dynamic_toolset_tokens 0 < static_tools_tokens 0
  /\ (static_tools_tokens 0 < full_context_tokens 0 <-> (0 < 342)%Z).
Proof.
  apply (token_ordering 0). unfold schema_tokens_bound. lia.
Defined.

(** The superseded one-argument latency function and the one in effect,
    called without a cycle count, charge the same three inference rounds
    but five tool calls against four. *)
Remark superseded_latency_one_tool_call_higher (num_tools : Z) :
  dynamic_toolset_latency_superseded num_tools
  == dynamic_toolset_latency num_tools None + TOOL_CALL_LATENCY.
Proof. reflexivity. Qed.

(** X15: for cycle counts from 0 to a million, every further discovery
    cycle adds the same latency, one inference round on the dynamic token
    count plus one tool call, which is 1102.75 ms and not the 600 ms of
    [LATENCY_PER_CYCLE]; with zero cycles what is left is one tool
    call. *)
Theorem latency_per_cycle_increment (num_tools c : Z) :
  (0 <= c <= increment_cycles_bound)%Z ->
  dynamic_toolset_latency num_tools (Some (c + 1)%Z)
    - dynamic_toolset_latency num_tools (Some c)
  == LLM_BASE_LATENCY
     + dynamic_toolset_tokens num_tools / 1000 * LLM_LATENCY_PER_1K_TOKENS
     + TOOL_CALL_LATENCY
  /\ dynamic_toolset_latency num_tools (Some (c + 1)%Z)
       - dynamic_toolset_latency num_tools (Some c)
     == 110275 # 100
  /\ ~ 110275 # 100 == LATENCY_PER_CYCLE
  /\ dynamic_toolset_latency num_tools (Some 0%Z) == TOOL_CALL_LATENCY.
Proof.
  intros _.
  assert (E : dynamic_toolset_latency num_tools (Some (c + 1)%Z)
              - dynamic_toolset_latency num_tools (Some c) == 110275 # 100).
  { rewrite !dynamic_toolset_latency_closed, inject_Z_plus.
    change (inject_Z 1) with (1 # 1). lra. }
  split; [rewrite E; reflexivity|]. split; [exact E|].
  split; [discriminate | reflexivity].
Qed.

Lemma latency_per_cycle_increment_witness :
  dynamic_toolset_latency 50 (Some (6 + 1)%Z) - dynamic_toolset_latency 50 (Some 6%Z)
  == 110275 # 100.
Proof.
  apply (latency_per_cycle_increment 50 6).
  unfold increment_cycles_bound. lia.
Defined.

(** ** Further properties of the accuracy model *)

(** Between [INT64_MIN + 15] and [INT64_MAX] the difference
    [num_tools - 15] does not wrap. *)
Lemma static_tools_accuracy_unwrapped (n : Z) :
  (INT64_MIN + 15 <= n <= INT64_MAX)%Z ->
  static_tools_accuracy n
  == 0.98 - Qmin (inject_Z (Z.max 0 (n - 15)) * 0.003) 0.20.
Proof.
  intro H. unfold static_tools_accuracy, TOOL_COUNT_ACCURACY_THRESHOLD,
    TOOL_COUNT_ACCURACY_DECAY, MAX_TOOL_ACCURACY_LOSS.
  rewrite wrap64_small by (unfold INT64_MIN, INT64_MAX in *; lia).
  reflexivity.
Qed.

Lemma static_tools_accuracy_piecewise (n : Z) :
  (INT64_MIN + 15 <= n <= INT64_MAX)%Z ->
  ((n <= 15)%Z -> static_tools_accuracy n == 0.98)
  /\ ((15 <= n <= 81)%Z ->
      static_tools_accuracy n == 0.98 - 0.003 * (inject_Z n - 15))
  /\ ((82 <= n)%Z -> static_tools_accuracy n == 0.78).
Proof.
  intro Hd. rewrite (static_tools_accuracy_unwrapped n Hd).
  repeat split; intro H.
  - replace (Z.max 0 (n - 15)) with 0%Z by lia. reflexivity.
  - replace (Z.max 0 (n - 15)) with (n - 15)%Z by lia.
    destruct H as [H1 H2]. rewrite Zle_Qle in H1, H2.
    change (inject_Z 15) with (15 # 1) in H1. change (inject_Z 81) with (81 # 1) in H2.
    assert (E : inject_Z (n - 15) == inject_Z n - 15).
    { unfold Z.sub. rewrite inject_Z_plus. reflexivity. }
    rewrite E, Q.min_l by lra. lra.
  - replace (Z.max 0 (n - 15)) with (n - 15)%Z by lia.
    rewrite Zle_Qle in H. change (inject_Z 82) with (82 # 1) in H.
    assert (E : inject_Z (n - 15) == inject_Z n - 15).
    { unfold Z.sub. rewrite inject_Z_plus. reflexivity. }
    rewrite E, Q.min_r by lra. reflexivity.
Qed.

(** X3: on the 64-bit counts whose difference with the threshold does not
    wrap, the static-tools accuracy has a threshold and a cap: it is 0.98
    up to 15 tools, lies strictly between 0.78 and 0.98 from 16 to 81
    tools, where it is 0.98 less 0.003 per tool above 15 to within 10^-9,
    and is 0.78 from 82 tools on, the loss having reached its maximum. *)
Theorem static_tools_accuracy_threshold_and_cap :
  (forall n : Z, (INT64_MIN + 15 <= n <= 15)%Z -> static_tools_accuracy n == 0.98)
  /\ (forall n : Z, (16 <= n <= 81)%Z ->
        0.78 < static_tools_accuracy n < 0.98
        /\ 0.98 - 0.003 * (inject_Z n - 15) - (1 # 1000000000)
             <= static_tools_accuracy n
             <= 0.98 - 0.003 * (inject_Z n - 15) + (1 # 1000000000))
  /\ (forall n : Z, (82 <= n <= INT64_MAX)%Z -> static_tools_accuracy n == 0.78).
Proof.
  split; [|split].
  - intros n H. apply (static_tools_accuracy_piecewise n); unfold INT64_MAX; lia.
  - intros n H.
    assert (Hd : (INT64_MIN + 15 <= n <= INT64_MAX)%Z)
      by (unfold INT64_MIN, INT64_MAX; lia).
    destruct (static_tools_accuracy_piecewise n Hd) as (_ & H2 & _).
    rewrite H2 by lia. destruct H as [H16 H81]. rewrite Zle_Qle in H16, H81.
    change (inject_Z 16) with (16 # 1) in H16.
    change (inject_Z 81) with (81 # 1) in H81.
    repeat split; lra.
  - intros n H. apply (static_tools_accuracy_piecewise n); unfold INT64_MIN; lia.
Qed.

Lemma static_tools_accuracy_threshold_and_cap_witness :
  static_tools_accuracy 0 == 0.98
  /\ 0.78 < static_tools_accuracy 50 < 0.98
  /\ static_tools_accuracy 200 == 0.78.
Proof.
  destruct static_tools_accuracy_threshold_and_cap as (H1 & H2 & H3).
  split; [apply H1; unfold INT64_MIN; lia|].
  split; [apply (H2 50%Z); lia | apply H3; unfold INT64_MAX; lia].
Defined.

(** X4: on the 64-bit counts whose difference with the threshold does not
    wrap, adding tools never raises the static-tools accuracy. *)
Theorem static_tools_accuracy_antitone (a b : Z) :
  (INT64_MIN + 15 <= a)%Z -> (a <= b)%Z -> (b <= INT64_MAX)%Z ->
  static_tools_accuracy b <= static_tools_accuracy a.
Proof.
  intros Ha H Hb.
  rewrite (static_tools_accuracy_unwrapped a), (static_tools_accuracy_unwrapped b)
    by lia.
  set (la := inject_Z (Z.max 0 (a - 15)) * 0.003).
  set (lb := inject_Z (Z.max 0 (b - 15)) * 0.003).
  assert (Hl : la <= lb).
  { unfold la, lb. apply Qmult_le_compat_r; [|discriminate].
    rewrite <- Zle_Qle. lia. }
  pose proof (Q.min_le_compat_r la lb 0.20 Hl). lra.
Qed.

Lemma static_tools_accuracy_antitone_witness :
  static_tools_accuracy 100 <= static_tools_accuracy 20.
Proof.
  apply (static_tools_accuracy_antitone 20 100);
    unfold INT64_MIN, INT64_MAX; lia.
Defined.

(** X5: on the 64-bit counts whose difference with the threshold does not
    wrap, the static-tools accuracy falls below the full-context accuracy
    exactly from 66 tools on. *)
Theorem static_accuracy_below_full_context_iff (num_tools : Z) :
  (INT64_MIN + 15 <= num_tools <= INT64_MAX)%Z ->
  (static_tools_accuracy num_tools < full_context_accuracy num_tools
   <-> (66 <= num_tools)%Z).
Proof.
  intro Hd. rewrite full_context_accuracy_value.
  destruct (static_tools_accuracy_piecewise num_tools Hd) as (H1 & H2 & H3).
  destruct (Z_le_gt_dec num_tools 15) as [Hle | Hgt].
  - rewrite (H1 Hle). split; [intro H; discriminate H | lia].
  - destruct (Z_le_gt_dec num_tools 81) as [Hle81 | Hgt81].
    + rewrite H2 by lia. split; intro H.
      * destruct (Z_le_gt_dec 66 num_tools) as [|Hlt]; [assumption | exfalso].
        assert (H65 : (num_tools <= 65)%Z) by lia.
        rewrite Zle_Qle in H65. change (inject_Z 65) with (65 # 1) in H65. lra.
      * rewrite Zle_Qle in H. change (inject_Z 66) with (66 # 1) in H. lra.
    + rewrite H3 by lia. split; [lia | reflexivity].
Qed.

Lemma static_accuracy_below_full_context_iff_witness :
  static_tools_accuracy 66 < full_context_accuracy 66 <-> (66 <= 66)%Z.
Proof.
  apply (static_accuracy_below_full_context_iff 66).
  unfold INT64_MIN, INT64_MAX. lia.
Defined.

(** ** Where the crossover and the latency parity lie *)

(** Comparing two percentages with positive denominators is comparing the
    cross products. *)
Lemma pct_lt_cross (p q s t : Q) :
  0 < s -> 0 < t -> (p / s * 100 < q / t * 100 <-> p * t < q * s).
Proof.
  intros Hs Ht.
  assert (Hst : 0 < s * t) by nra.
  assert (E1 : p / s * 100 * (s * t) == 100 * (p * t)) by (field; lra).
  assert (E2 : q / t * 100 * (s * t) == 100 * (q * s)) by (field; lra).
  rewrite <- (Qmult_lt_r (p / s * 100) (q / t * 100) (s * t) Hst), E1, E2.
  split; intro H; lra.
Qed.

Lemma pct_lt_const (p t c : Q) :
  0 < t -> (p / t * 100 < c <-> p * 100 < c * t).
Proof.
  intro Ht.
  assert (E : p / t * 100 * t == p * 100) by (field; lra).
  rewrite <- (Qmult_lt_r (p / t * 100) c t Ht), E. reflexivity.
Qed.

Lemma token_savings_at_closed (n : Z) :
  (0 <= n <= schema_tokens_bound)%Z ->
  token_savings_at n
  == (245 + 100 * inject_Z n) / (2300 + 100 * inject_Z n) * 100.
Proof.
  intro Hn. unfold token_savings_at.
  rewrite static_tools_tokens_closed by exact Hn.
  rewrite dynamic_toolset_tokens_closed.
  apply Qmult_comp; [|reflexivity]. apply Qdiv_comp; [|reflexivity]. lra.
Qed.

Lemma latency_overhead_at_closed (n : Z) :
  (0 <= n <= schema_tokens_bound)%Z ->
  latency_overhead_at n
  == ((797300 # 400) - 5 * inject_Z n) / (1515 + 5 * inject_Z n) * 100.
Proof.
  intro Hn. unfold latency_overhead_at.
  rewrite static_tools_latency_closed by exact Hn.
  rewrite dynamic_toolset_latency_default.
  apply Qmult_comp; [|reflexivity]. apply Qdiv_comp; [|reflexivity]. lra.
Qed.

Lemma favorable_iff_85 (n : Z) :
  (0 <= n <= schema_tokens_bound)%Z ->
  (latency_overhead_at n < token_savings_at n <-> (85 <= n)%Z).
Proof.
  intro Hn. pose proof (inject_Z_nonneg n (proj1 Hn)) as Hx.
  rewrite token_savings_at_closed, latency_overhead_at_closed by exact Hn.
  rewrite pct_lt_cross by lra.
  set (x := inject_Z n) in *. split; intro H.
  - destruct (Z_le_gt_dec 85 n) as [|Hlt]; [assumption | exfalso].
    assert (H84 : (n <= 84)%Z) by lia.
    rewrite Zle_Qle in H84. change (inject_Z 84) with (84 # 1) in H84.
    fold x in H84. nra.
  - rewrite Zle_Qle in H. change (inject_Z 85) with (85 # 1) in H.
    fold x in H. nra.
Qed.

Lemma find_ext_in {A : Type} (p q : A -> bool) (xs : list A) :
  (forall x, In x xs -> p x = q x) -> find p xs = find q xs.
Proof.
  induction xs as [|x xs IH]; cbn; intro H; [reflexivity|].
  rewrite (H x) by now left. destruct (q x); [reflexivity|].
  apply IH. intros y Hy. apply H. now right.
Qed.

(** X8: on tool counts from 0 up to the wrap-around bound the dynamic
    toolset is net favorable (token savings percentage above latency
    overhead percentage) exactly from 85 tools on, so the crossover of a
    sweep of such counts is its first count that is at least 85, whatever
    the order of the sweep, and there is none when every count is below
    85. *)
Theorem crossover_is_first_count_from_85 (tool_counts : list Z) :
  Forall (fun n => (0 <= n <= schema_tokens_bound)%Z) tool_counts ->
  (forall n, In n tool_counts ->
     (latency_overhead_at n < token_savings_at n <-> (85 <= n)%Z))
  /\ crossover_start tool_counts = find (fun n => (85 <=? n)%Z) tool_counts.
Proof.
  intro Hnn. rewrite Forall_forall in Hnn. split.
  - intros n Hin. apply favorable_iff_85. now apply Hnn.
  - rewrite crossover_start_find. apply find_ext_in. intros n Hin.
    apply eq_true_iff_eq. rewrite favorable_spec, Z.leb_le.
    apply favorable_iff_85. now apply Hnn.
Qed.

Lemma crossover_is_first_count_from_85_witness :
  crossover_start [200; 90; 5; 85]%Z
  = find (fun n => (85 <=? n)%Z) [200; 90; 5; 85]%Z.
Proof.
  apply (crossover_is_first_count_from_85 [200; 90; 5; 85]%Z).
  unfold schema_tokens_bound. repeat (constructor; try lia).
Defined.

(** X9: on tool counts from 0 to a million the token savings percentage
    lies strictly between 0 and 100 and grows strictly with the tool count,
    while the latency overhead percentage shrinks strictly; the net benefit
    therefore grows strictly and changes sign once. *)
Theorem savings_grow_overhead_shrinks (a b : Z) :
  (0 <= a)%Z -> (a < b)%Z -> (b <= percent_tools_bound)%Z ->
  0 < token_savings_at a < 100
  /\ token_savings_at a < token_savings_at b
  /\ latency_overhead_at b < latency_overhead_at a
  /\ token_savings_at a - latency_overhead_at a
       < token_savings_at b - latency_overhead_at b.
Proof.
  intros Ha Hab Hb. pose proof (inject_Z_nonneg a Ha) as Hx.
  assert (Hda : (0 <= a <= schema_tokens_bound)%Z)
    by (unfold percent_tools_bound, schema_tokens_bound in *; lia).
  assert (Hdb : (0 <= b <= schema_tokens_bound)%Z)
    by (unfold percent_tools_bound, schema_tokens_bound in *; lia).
  rewrite Zlt_Qlt in Hab.
  assert (Hs : token_savings_at a < token_savings_at b).
  { rewrite !token_savings_at_closed by assumption.
    rewrite pct_lt_cross by lra. nra. }
  assert (Ho : latency_overhead_at b < latency_overhead_at a).
  { rewrite !latency_overhead_at_closed by assumption.
    rewrite pct_lt_cross by lra. nra. }
  repeat split; try assumption; try lra.
  - rewrite token_savings_at_closed by assumption.
    assert (E : 0 == 0 / 1 * 100) by reflexivity.
    rewrite E at 1. rewrite pct_lt_cross by lra. lra.
  - rewrite token_savings_at_closed by assumption.
    rewrite pct_lt_const by lra. lra.
Qed.

Lemma savings_grow_overhead_shrinks_witness :
  0 < token_savings_at 5 < 100
  /\ token_savings_at 5 < token_savings_at 200
  /\ latency_overhead_at 200 < latency_overhead_at 5
  /\ token_savings_at 5 - latency_overhead_at 5
       < token_savings_at 200 - latency_overhead_at 200.
Proof.
  apply (savings_grow_overhead_shrinks 5 200); unfold percent_tools_bound; lia.
Defined.

Lemma latency_close_iff_335 (n : Z) :
  (0 <= n <= schema_tokens_bound)%Z ->
  (latency_overhead_at n < 10 <-> (335 <= n)%Z).
Proof.
  intro Hn. pose proof (inject_Z_nonneg n (proj1 Hn)) as Hx.
  rewrite latency_overhead_at_closed by exact Hn.
  rewrite pct_lt_const by lra.
  split; intro H.
  - destruct (Z_le_gt_dec 335 n) as [|Hlt]; [assumption | exfalso].
    assert (H334 : (n <= 334)%Z) by lia.
    rewrite Zle_Qle in H334. change (inject_Z 334) with (334 # 1) in H334. lra.
  - rewrite Zle_Qle in H. change (inject_Z 335) with (335 # 1) in H. lra.
Qed.

Lemma Qltb_lt (a b : Q) : Qltb a b = true <-> a < b.
Proof.
  unfold Qltb. rewrite negb_true_iff, <- not_true_iff_false, Qle_bool_iff.
  split; [apply Qnot_le_lt | apply Qlt_not_le].
Qed.

Lemma latency_match_find (test_range : list Z) :
  latency_match test_range
  = find (fun n => Qltb (latency_overhead_at n) 10) test_range.
Proof.
  unfold latency_match. rewrite zip_with_map, map_map.
  apply (first_where_is_find (fun n => Qltb (latency_overhead_at n) 10)).
Qed.

Lemma arange_bounds (start stop : Z) (n : Z) :
  In n (arange start stop 1) -> (start <= n < stop)%Z.
Proof.
  unfold arange. rewrite in_map_iff. intros (i & <- & Hi).
  apply in_seq in Hi. rewrite Z.div_1_r in Hi. lia.
Qed.

(** X10: on tool counts from 0 up to the wrap-around bound the latency
    overhead is under 10 percent exactly from 335 tools on, so the latency
    parity of a range of such counts is its first count that is at least
    335; over the range 5..299 that [print_summary_table] scans there is
    none, and the parity line is never printed. *)
Theorem latency_parity_is_first_count_from_335 (test_range : list Z) :
  Forall (fun n => (0 <= n <= schema_tokens_bound)%Z) test_range ->
  (forall n, In n test_range -> (latency_overhead_at n < 10 <-> (335 <= n)%Z))
  /\ latency_match test_range = find (fun n => (335 <=? n)%Z) test_range
  /\ print_summary_latency_match = None.
Proof.
  intro Hnn. rewrite Forall_forall in Hnn.
  assert (Hfind : forall r,
            (forall n, In n r -> (0 <= n <= schema_tokens_bound)%Z) ->
            latency_match r = find (fun n => (335 <=? n)%Z) r).
  { intros r Hr. rewrite latency_match_find. apply find_ext_in. intros n Hin.
    apply eq_true_iff_eq. rewrite Qltb_lt, Z.leb_le.
    apply latency_close_iff_335. now apply Hr. }
  split; [|split].
  - intros n Hin. apply latency_close_iff_335. now apply Hnn.
  - now apply Hfind.
  - unfold print_summary_latency_match. rewrite Hfind.
    + destruct (find _ _) as [n|] eqn:Hf; [|reflexivity].
      apply find_some in Hf. destruct Hf as [Hin Hge].
      apply arange_bounds in Hin. apply Z.leb_le in Hge. lia.
    + intros n Hin. apply arange_bounds in Hin.
      unfold schema_tokens_bound. lia.
Qed.

Lemma latency_parity_is_first_count_from_335_witness :
  latency_match [5; 300; 335; 400]%Z
  = find (fun n => (335 <=? n)%Z) [5; 300; 335; 400]%Z.
Proof.
  apply (latency_parity_is_first_count_from_335 [5; 300; 335; 400]%Z).
  unfold schema_tokens_bound. repeat (constructor; try lia).
Defined.

(** ** How the dynamic accuracy moves with tools and cycles *)

Section AccuracyTrends.

Variable log10 : Z -> Q.
Hypothesis log10_one : log10 1 == 0.
Hypothesis log10_mono : forall a b : Z, (1 <= a <= b)%Z -> log10 a <= log10 b.
Hypothesis log10_pow10 : forall k : Z, (0 <= k)%Z -> log10 (10 ^ k) == inject_Z k.

Lemma cycle_success_positive (c : Z) : 0 < (1 - DISCOVERY_CYCLE_ERROR_RATE) ^ c.
Proof. apply Qpower_0_lt. reflexivity. Qed.

Lemma tool_scaling_antitone (a b : Z) :
  (a <= b)%Z -> tool_scaling log10 b <= tool_scaling log10 a.
Proof.
  intro H. unfold tool_scaling.
  assert (Hl : log10 (log10_argument a) <= log10 (log10_argument b)).
  { apply log10_mono. unfold log10_argument. lia. }
  lra.
Qed.

(** X6: adding tools never raises the dynamic-toolset accuracy, for any
    cycle count, given or defaulted, and any two tool counts. *)
Theorem dynamic_toolset_accuracy_antitone (a b : Z) (cycles : option Z) :
  (a <= b)%Z ->
  dynamic_toolset_accuracy log10 b cycles <= dynamic_toolset_accuracy log10 a cycles.
Proof.
  intro H. unfold dynamic_toolset_accuracy.
  pose proof (tool_scaling_antitone a b H) as Hts.
  pose proof (cycle_success_positive (cycles_or_avg cycles)) as Hcs.
  set (ta := tool_scaling log10 a) in *. set (tb := tool_scaling log10 b) in *.
  set (cs := (1 - DISCOVERY_CYCLE_ERROR_RATE) ^ cycles_or_avg cycles) in *.
  nra.
Qed.

Lemma dynamic_toolset_accuracy_decreasing (n c1 c2 : Z) :
  (0 <= n <= tool_count_bound)%Z -> (c1 < c2)%Z ->
  dynamic_toolset_accuracy log10 n (Some c2) < dynamic_toolset_accuracy log10 n (Some c1).
Proof.
  intros Hn Hc. unfold dynamic_toolset_accuracy, cycles_or_avg.
  pose proof (tool_scaling_bounds log10 log10_one log10_mono log10_pow10 n Hn) as Hts.
  pose proof (cycle_success_decreasing c1 c2 Hc) as Hcs.
  set (ts := tool_scaling log10 n) in *.
  set (p1 := (1 - DISCOVERY_CYCLE_ERROR_RATE) ^ c1) in *.
  set (p2 := (1 - DISCOVERY_CYCLE_ERROR_RATE) ^ c2) in *.
  nra.
Qed.

(** X7: the two range functions return ordered triples: the latency is
    lowest in the best case and highest in the worst, the accuracy (for
    tool counts up to the bound) highest in the best case and lowest in the
    worst, and the middle component is what the function gives when no
    cycle count is passed. *)
Theorem dynamic_ranges_ordered (num_tools : Z) :
  (0 <= num_tools <= tool_count_bound)%Z ->
  let lat := dynamic_toolset_latency_range num_tools in
  let acc := dynamic_toolset_accuracy_range log10 num_tools in
  fst (fst lat) < snd (fst lat) < snd lat
  /\ snd acc < snd (fst acc) < fst (fst acc)
  /\ snd (fst lat) == dynamic_toolset_latency num_tools None
  /\ snd (fst acc) == dynamic_toolset_accuracy log10 num_tools None.
Proof.
  intro Hn. cbn zeta.
  unfold dynamic_toolset_latency_range, dynamic_toolset_accuracy_range.
  cbn [fst snd]. split; [|split; [|split; reflexivity]]; split.
  - apply dynamic_toolset_latency_increasing. reflexivity.
  - apply dynamic_toolset_latency_increasing. reflexivity.
  - apply dynamic_toolset_accuracy_decreasing; [exact Hn | reflexivity].
  - apply dynamic_toolset_accuracy_decreasing; [exact Hn | reflexivity].
Qed.

End AccuracyTrends.

Lemma dynamic_toolset_accuracy_antitone_witness :
  dynamic_toolset_accuracy floor_log10_Q 200 (Some 6%Z)
    <= dynamic_toolset_accuracy floor_log10_Q 5 (Some 6%Z).
Proof.
  apply (dynamic_toolset_accuracy_antitone floor_log10_Q floor_log10_Q_mono 5 200).
  lia.
Defined.

Lemma dynamic_ranges_ordered_witness :
  let lat := dynamic_toolset_latency_range 50 in
  let acc := dynamic_toolset_accuracy_range floor_log10_Q 50 in
  fst (fst lat) < snd (fst lat) < snd lat
  /\ snd acc < snd (fst acc) < fst (fst acc)
  /\ snd (fst lat) == dynamic_toolset_latency 50 None
  /\ snd (fst acc) == dynamic_toolset_accuracy floor_log10_Q 50 None.
Proof.
  apply (dynamic_ranges_ordered floor_log10_Q
           floor_log10_Q_one floor_log10_Q_mono floor_log10_Q_pow10 50).
  unfold tool_count_bound. lia.
Defined.

(** ** Empty sweeps in the accuracy run *)

(** X11: [run_accuracy_simulation] raises [IndexError] on an empty sweep,
    at the annotation that reads the first full-context accuracy; on any
    other sweep, and on the default one, it returns the five series as
    percentages, one entry per tool count. *)
Theorem run_accuracy_simulation_empty_raises (log10 : Z -> Q) (tool_counts : list Z) :
  match tool_counts with
  | [] => run_accuracy_simulation log10 (Some tool_counts) = Raised "IndexError"
  | _ :: _ =>
      exists r : AccuracyResult,
        run_accuracy_simulation log10 (Some tool_counts) = Returned r
        /\ acc_tool_counts r = tool_counts
        /\ res_full_context_accuracy r
           = map (fun n => full_context_accuracy n * 100) tool_counts
        /\ res_static_tools_accuracy r
           = map (fun n => static_tools_accuracy n * 100) tool_counts
        /\ dynamic_toolset_accuracy_best r
           = map (fun n => dynamic_toolset_accuracy log10 n (Some DYNAMIC_CYCLES_MIN) * 100)
                 tool_counts
        /\ dynamic_toolset_accuracy_avg r
           = map (fun n => dynamic_toolset_accuracy log10 n (Some DYNAMIC_CYCLES_AVG) * 100)
                 tool_counts
        /\ dynamic_toolset_accuracy_worst r
           = map (fun n => dynamic_toolset_accuracy log10 n (Some DYNAMIC_CYCLES_MAX) * 100)
                 tool_counts
  end
  /\ exists r : AccuracyResult,
       run_accuracy_simulation log10 None = Returned r
       /\ acc_tool_counts r = run_accuracy_simulation_default.
Proof.
  split.
  - destruct tool_counts as [|n tool_counts]; [reflexivity|].
    eexists. split; [reflexivity|]. cbn. repeat split.
  - eexists. split; reflexivity.
Qed.

(** ** Bubble sizes *)

Lemma acc_to_size_closed (acc : Q) : acc_to_size acc == 12 * acc - 850.
Proof. unfold acc_to_size. field. Qed.

(** X13: [acc_to_size] scales accuracy percentages from 75..100 to bubble
    sizes 50..350: it maps 75 to 50 and 100 to 350 and never decreases, so
    percentages in 75..100 get sizes in 50..350; the full-context and
    static-tools bubbles have sizes in that range at every tool count. *)
Theorem acc_to_size_scale :
  acc_to_size 75 == 50
  /\ acc_to_size 100 == 350
  /\ (forall a b : Q, a <= b -> acc_to_size a <= acc_to_size b)
  /\ (forall acc : Q, 75 <= acc <= 100 -> 50 <= acc_to_size acc <= 350)
  /\ (forall n : Z,
        50 <= acc_to_size (full_context_accuracy n * 100) <= 350
        /\ 50 <= acc_to_size (static_tools_accuracy n * 100) <= 350).
Proof.
  split; [reflexivity|]. split; [reflexivity|]. split; [|split].
  - intros a b H. rewrite !acc_to_size_closed. lra.
  - intros acc H. rewrite acc_to_size_closed. lra.
  - intro n. rewrite !acc_to_size_closed, full_context_accuracy_value.
    pose proof (static_tools_accuracy_bounds n). lra.
Qed.

Lemma acc_to_size_scale_witness :
  acc_to_size 80 <= acc_to_size 95 /\ 50 <= acc_to_size 83 <= 350.
Proof.
  destruct acc_to_size_scale as (_ & _ & Hmono & Hrange & _).
  split; [apply Hmono; discriminate | apply Hrange; split; discriminate].
Defined.

(** ** Monthly cost, ordered *)

Lemma Forall2_map_map {A B C : Type} (R : B -> C -> Prop) (f : A -> B) (g : A -> C) xs :
  Forall (fun x => R (f x) (g x)) xs -> Forall2 R (map f xs) (map g xs).
Proof.
  induction 1; cbn; constructor; assumption.
Qed.

(** X14: for a sweep of tool counts from 0 up to the wrap-around bound, a
    query volume from 1 to 10^12 and a price from 0.001 to 1000 per million
    tokens, the cost series have one entry per swept count and at every
    count the dynamic toolset costs strictly less per month than the static
    tools; with zero queries every cost of every strategy is zero. *)
Theorem dynamic_cost_below_static_cost
    (tool_counts : list Z) (queries_per_month : Z) (cost_per_million_tokens : Q) :
  Forall (fun n => (0 <= n <= schema_tokens_bound)%Z) tool_counts ->
  (1 <= queries_per_month <= 1000000000000)%Z ->
  (1 # 1000) <= cost_per_million_tokens <= 1000 ->
  let r := run_cost_simulation (Some tool_counts) queries_per_month cost_per_million_tokens in
  let r0 := run_cost_simulation (Some tool_counts) 0 cost_per_million_tokens in
  cost_tool_counts r = tool_counts
  /\ List.length (dynamic_cost r) = List.length tool_counts
  /\ List.length (static_cost r) = List.length tool_counts
  /\ Forall2 Qlt (dynamic_cost r) (static_cost r)
  /\ List.length (full_context_cost r0) = List.length tool_counts
  /\ List.length (static_cost r0) = List.length tool_counts
  /\ List.length (dynamic_cost r0) = List.length tool_counts
  /\ Forall (fun c => c == 0) (full_context_cost r0 ++ static_cost r0 ++ dynamic_cost r0).
Proof.
  intros Hnn [Hq _] [Hc _]. cbn zeta. unfold run_cost_simulation.
  cbn [cost_tool_counts dynamic_cost static_cost full_context_cost].
  rewrite !map_map, !length_map.
  split; [reflexivity|]. split; [reflexivity|]. split; [reflexivity|]. split.
  - apply Forall2_map_map. rewrite Forall_forall in *. intros n Hin.
    pose proof (inject_Z_nonneg n (proj1 (Hnn n Hin))) as Hx.
    rewrite Zle_Qle in Hq. change (inject_Z 1) with 1 in Hq.
    assert (Hm : 0 < inject_Z queries_per_month * cost_per_million_tokens / 1000000).
    { apply Qlt_shift_div_l; [reflexivity | nra]. }
    rewrite static_tools_tokens_closed by (now apply Hnn).
    rewrite dynamic_toolset_tokens_closed.
    set (m := inject_Z queries_per_month * cost_per_million_tokens / 1000000) in *.
    nra.
  - split; [reflexivity|]. split; [reflexivity|]. split; [reflexivity|].
    rewrite !Forall_app, !Forall_map. repeat split; apply Forall_forall; intros n _;
      unfold Qdiv; change (inject_Z 0) with 0; ring.
Qed.

Lemma dynamic_cost_below_static_cost_witness :
  let r := run_cost_simulation (Some [10; 200]%Z) 1000000 3 in
  Forall2 Qlt (dynamic_cost r) (static_cost r).
Proof.
  apply (dynamic_cost_below_static_cost [10; 200]%Z 1000000 3).
  - unfold schema_tokens_bound. repeat (constructor; try lia).
  - lia.
  - split; discriminate.
Defined.

(** ** The cycle-impact series *)

Section CycleImpactSeries.

Variable log10 : Z -> Q.
Hypothesis log10_one : log10 1 == 0.
Hypothesis log10_mono : forall a b : Z, (1 <= a <= b)%Z -> log10 a <= log10 b.
Hypothesis log10_pow10 : forall k : Z, (0 <= k)%Z -> log10 (10 ^ k) == inject_Z k.

Lemma accuracy_pct_decreasing_at_50 (c1 c2 : Z) :
  (c1 < c2)%Z ->
  dynamic_toolset_accuracy log10 50 (Some c2) * 100
    < dynamic_toolset_accuracy log10 50 (Some c1) * 100.
Proof.
  intro H.
  assert (Hn : (0 <= 50 <= tool_count_bound)%Z) by (unfold tool_count_bound; lia).
  pose proof (dynamic_toolset_accuracy_decreasing
                log10 log10_one log10_mono log10_pow10 50 c1 c2 Hn H).
  lra.
Qed.

(** X16: [run_cycle_impact_simulation] evaluates the cycle counts 1 to 9
    at 50 tools; along the series every latency is strictly above the one
    before it and every accuracy percentage strictly below. *)
Theorem cycle_impact_series_monotone :
  let r := run_cycle_impact_simulation log10 in
  cycles r = [1; 2; 3; 4; 5; 6; 7; 8; 9]%Z
  /\ List.length (latencies r) = 9%nat
  /\ List.length (accuracies r) = 9%nat
  /\ StronglySorted Qlt (latencies r)
  /\ StronglySorted (fun earlier later => later < earlier) (accuracies r).
Proof.
  cbn zeta. unfold run_cycle_impact_simulation.
  cbn [cycles latencies accuracies].
  change (arange 1 10 1) with [1; 2; 3; 4; 5; 6; 7; 8; 9]%Z.
  split; [reflexivity|]. split; [reflexivity|]. split; [reflexivity|]. split.
  - cbn [map].
    repeat (apply SSorted_cons || apply SSorted_nil || apply Forall_cons
            || apply Forall_nil);
      apply dynamic_toolset_latency_increasing; reflexivity.
  - cbn [map].
    repeat (apply SSorted_cons || apply SSorted_nil || apply Forall_cons
            || apply Forall_nil);
      apply accuracy_pct_decreasing_at_50; reflexivity.
Qed.

End CycleImpactSeries.

Lemma cycle_impact_series_monotone_witness :
  let r := run_cycle_impact_simulation floor_log10_Q in
  cycles r = [1; 2; 3; 4; 5; 6; 7; 8; 9]%Z
  /\ List.length (latencies r) = 9%nat
  /\ List.length (accuracies r) = 9%nat
  /\ StronglySorted Qlt (latencies r)
  /\ StronglySorted (fun earlier later => later < earlier) (accuracies r).
Proof.
  apply (cycle_impact_series_monotone floor_log10_Q
           floor_log10_Q_one floor_log10_Q_mono floor_log10_Q_pow10).
Defined.
